(** * alx_travel_app / listings: availability filter and booking lifecycle

    A shallow embedding of [listings/views.py]: the listing queryset with its
    price and date-availability filters, the [available] action, and the
    booking view set with its [cancel] and [confirm] actions.  The record
    store (two tables) is threaded explicitly through a small state-and-
    exception monad, so that every view reads like its Python source. *)

From Stdlib Require Import ZArith List String Bool Lia.
Import ListNotations.

Local Open Scope string_scope.
Local Open Scope list_scope.
Local Open Scope Z_scope.

(* ================================================================= *)
(** ** Calendar dates *)

(** A [datetime.date]: compared as the tuple (year, month, day). *)
Module Date.

Record t : Set := make { year : Z; month : Z; day : Z }.

Definition ltb (a b : t) : bool :=
  (year a <? year b)
  || ((year a =? year b)
      && ((month a <? month b)
          || ((month a =? month b) && (day a <? day b)))).

Definition leb (a b : t) : bool := negb (ltb b a).

Definition lt (a b : t) : Prop := ltb a b = true.
Definition le (a b : t) : Prop := leb a b = true.

Ltac to_Z :=
  unfold le, lt, leb, ltb in *;
  repeat match goal with
         | d : t |- _ => destruct d
         end;
  cbn [year month day] in *;
  repeat match goal with
         | H : negb _ = true |- _ => apply negb_true_iff in H
         | H : negb _ = false |- _ => apply negb_false_iff in H
         | |- negb _ = true => apply negb_true_iff
         | |- negb _ = false => apply negb_false_iff
         end;
  repeat match goal with
         | H : context [?x <? ?y] |- _ => destruct (Z.ltb_spec x y)
         | H : context [?x =? ?y] |- _ => destruct (Z.eqb_spec x y)
         | |- context [?x <? ?y] => destruct (Z.ltb_spec x y)
         | |- context [?x =? ?y] => destruct (Z.eqb_spec x y)
         end;
  cbn in *; try congruence; try lia.

End Date.

(* ================================================================= *)
(** ** The record store *)

(** [Booking.status]: a choice field over four names. *)
Inductive Status : Set := pending | confirmed | cancelled | completed.

Definition status_name (s : Status) : string :=
  match s with
  | pending => "pending"
  | confirmed => "confirmed"
  | cancelled => "cancelled"
  | completed => "completed"
  end.

Definition status_eqb (a b : Status) : bool :=
  match a, b with
  | pending, pending | confirmed, confirmed
  | cancelled, cancelled | completed, completed => true
  | _, _ => false
  end.

(** Python's [x in [...]] on statuses. *)
Definition status_in (s : Status) (l : list Status) : bool :=
  existsb (status_eqb s) l.

Module Listing.
(** The columns of [Listing] that the views read.  [price_per_night] is a
    fixed-point decimal, kept as an integer count of its smallest unit. *)
Record t : Set := make
  { id : Z; price_per_night : Z; is_active : bool; created_by : Z }.
End Listing.

Module Booking.
Record t : Set := make
  { id : Z;
    listing_id : Z;
    user : Z;
    check_in_date : Date.t;
    check_out_date : Date.t;
    status : Status }.

(** [booking.status = s] on the in-memory instance. *)
Definition set_status (b : t) (s : Status) : t :=
  make (id b) (listing_id b) (user b) (check_in_date b) (check_out_date b) s.
End Booking.

Record Store : Set := mkStore
  { listings : list Listing.t; bookings : list Booking.t }.

(* ================================================================= *)
(** ** Views as store transformers that may raise *)

Inductive exn : Set :=
| ValidationError   (* a field value that cannot be coerced, or bad input *)
| Conflict          (* the requested interval is taken *)
| Http404.          (* no such record in the view's queryset *)

Definition View (A : Type) : Type := Store -> (exn + A) * Store.

Definition ret {A} (a : A) : View A := fun s => (inr a, s).
Definition raise {A} (e : exn) : View A := fun s => (inl e, s).
Definition bind {A B} (m : View A) (k : A -> View B) : View B :=
  fun s => match m s with
           | (inr a, s') => k a s'
           | (inl e, s') => (inl e, s')
           end.
Definition gets {A} (f : Store -> A) : View A := fun s => (inr (f s), s).
Definition modify (f : Store -> Store) : View unit := fun s => (inr tt, f s).

Notation "x <- m ;; k" := (bind m (fun x => k))
  (at level 61, m at next level, right associativity).
Notation "m ;;; k" := (bind m (fun _ => k))
  (at level 61, right associativity).

Definition outcome {A} (r : (exn + A) * Store) : exn + A := fst r.
Definition store_after {A} (r : (exn + A) * Store) : Store := snd r.

(* ================================================================= *)
(** ** Responses *)

Definition HTTP_200_OK : Z := 200.
Definition HTTP_400_BAD_REQUEST : Z := 400.

(** The JSON payloads the views build. *)
Inductive Data : Set :=
| ErrorData (error : string)
| ListingsData (rows : list Listing.t)
| BookingMessage (message : string) (booking : Booking.t).

Record Response : Set := mkResponse { data : Data; status_code : Z }.

(* ================================================================= *)
(** ** Query parameters *)

(** [request.query_params]: key/value pairs in URL order; [get] returns the
    last value given for a key, or [None]. *)
Definition QueryDict : Set := list (string * string).

Fixpoint get (key : string) (q : QueryDict) : option string :=
  match q with
  | [] => None
  | (k, v) :: rest =>
      match get key rest with
      | Some v' => Some v'
      | None => if String.eqb k key then Some v else None
      end
  end.

(** Truth value of a [str | None]. *)
Definition truthy (v : option string) : bool :=
  match v with
  | Some s => negb (String.eqb s "")
  | None => false
  end.

Definition is_not_None {A} (v : option A) : bool :=
  match v with Some _ => true | None => false end.

(** A lookup value handed to the ORM is coerced by the column's field; a value
    the field rejects raises. *)
Definition to_python {A} (field : string -> option A) (v : option string)
  : View A :=
  match v with
  | Some s => match field s with
              | Some a => ret a
              | None => raise ValidationError
              end
  | None => raise ValidationError
  end.

(* ================================================================= *)
(** ** Permissions *)

(** The two permission classes the view sets name. *)
Inductive Permission : Set := IsAuthenticated | AllowAny.

(** [permission.has_permission(request, view)]; [request_user] is the key of
    the authenticated user, or [None] for an anonymous request. *)
Definition has_permission (p : Permission) (request_user : option Z) : bool :=
  match p with
  | IsAuthenticated => is_not_None request_user
  | AllowAny => true
  end.

(** The framework's [check_permissions]: every permission of the view must
    grant the request. *)
Definition check_permissions (permissions : list Permission)
  (request_user : option Z) : bool :=
  forallb (fun p => has_permission p request_user) permissions.

(* ================================================================= *)
(** ** ListingViewSet *)

Module ListingViewSet.
Section WithFields.

(** The coercions of [DateField] and [DecimalField] (ORM code, outside
    [views.py]): any partial parsers. *)
Variable DateField : string -> option Date.t.
Variable DecimalField : string -> option Z.

(** [queryset = Listing.objects.filter(is_active=True)] *)
Definition queryset : View (list Listing.t) :=
  gets (fun s => filter Listing.is_active (listings s)).

(** [Q(check_in_date__lt=check_out) & Q(check_out_date__gt=check_in)] *)
Definition Q_overlap (check_in check_out : Date.t) (b : Booking.t) : bool :=
  Date.ltb (Booking.check_in_date b) check_out
  && Date.ltb check_in (Booking.check_out_date b).

(** The filter of lines 70-73, followed by [values_list('listing_id')]. *)
Definition overlapping_bookings (check_in check_out : Date.t)
  : View (list Z) :=
  gets (fun s =>
    map Booking.listing_id
      (filter (fun b =>
                 Q_overlap check_in check_out b
                 && status_in (Booking.status b) [confirmed; pending])
              (bookings s))).

(** [queryset.exclude(id__in=ids)] *)
Definition exclude_id_in (ids : list Z) (qs : list Listing.t)
  : list Listing.t :=
  filter (fun l => negb (existsb (Z.eqb (Listing.id l)) ids)) qs.

(** Lines 55-62: the price range. *)
Definition filter_price (query_params : QueryDict) (queryset : list Listing.t)
  : View (list Listing.t) :=
  let min_price := get "min_price" query_params in
  let max_price := get "max_price" query_params in
  queryset <-
    (if is_not_None min_price then
       p <- to_python DecimalField min_price ;;
       ret (filter (fun l => p <=? Listing.price_per_night l) queryset)
     else ret queryset) ;;
  if is_not_None max_price then
    p <- to_python DecimalField max_price ;;
    ret (filter (fun l => Listing.price_per_night l <=? p) queryset)
  else ret queryset.

(** Lines 64-74: date availability, applied when both dates are given. *)
Definition filter_dates (query_params : QueryDict) (queryset : list Listing.t)
  : View (list Listing.t) :=
  let check_in := get "check_in_date" query_params in
  let check_out := get "check_out_date" query_params in
  if truthy check_in && truthy check_out then
    check_out <- to_python DateField check_out ;;
    check_in <- to_python DateField check_in ;;
    overlapping_bookings <- overlapping_bookings check_in check_out ;;
    ret (exclude_id_in overlapping_bookings queryset)
  else ret queryset.

Definition get_queryset (query_params : QueryDict)
  : View (list Listing.t) :=
  queryset <- queryset ;;
  queryset <- filter_price query_params queryset ;;
  filter_dates query_params queryset.

Definition available (query_params : QueryDict) : View Response :=
  let check_in := get "check_in_date" query_params in
  let check_out := get "check_out_date" query_params in
  if negb (truthy check_in) || negb (truthy check_out) then
    ret (mkResponse
           (ErrorData "Both check_in_date and check_out_date are required")
           HTTP_400_BAD_REQUEST)
  else
    queryset <- get_queryset query_params ;;
    ret (mkResponse (ListingsData queryset) HTTP_200_OK).

End WithFields.

(** [get_permissions]: the permission instances for [self.action]. *)
Definition get_permissions (action : string) : list Permission :=
  let permission_classes :=
    if existsb (String.eqb action)
         ["create"; "update"; "partial_update"; "destroy"]
    then [IsAuthenticated]
    else [AllowAny] in
  permission_classes.

(** The validated fields of a create request. *)
Record validated_data : Set := mkData { price : Z; active : bool }.

(** The primary key the table hands to a new row. *)
Definition next_id (rows : list Listing.t) : Z :=
  1 + fold_right Z.max 0 (map Listing.id rows).

(** [serializer.save(created_by=self.request.user)]: insert one row made of
    the validated fields and the requesting user as creator; the new instance
    is returned (Python keeps it in [serializer.instance]). *)
Definition perform_create (request_user : Z) (serializer : validated_data)
  : View Listing.t :=
  rows <- gets listings ;;
  let instance :=
    Listing.make (next_id rows) (price serializer) (active serializer)
      request_user in
  modify (fun s => mkStore (listings s ++ [instance]) (bookings s)) ;;;
  ret instance.

End ListingViewSet.


(* ================================================================= *)
(** ** BookingViewSet *)

Module BookingViewSet.

(** [Booking.objects.filter(user=self.request.user)] *)
Definition get_queryset (request_user : Z) : View (list Booking.t) :=
  gets (fun s =>
    filter (fun b => Booking.user b =? request_user) (bookings s)).

(** The framework's [self.get_object()]: the row of [get_queryset()] whose
    primary key is [pk], or a 404. *)
Definition get_object (request_user pk : Z) : View Booking.t :=
  queryset <- get_queryset request_user ;;
  match find (fun b => Booking.id b =? pk) queryset with
  | Some obj => ret obj
  | None => raise Http404
  end.

(** [booking.save()] on a fetched instance: rewrite the row that has the
    instance's primary key. *)
Definition save (booking : Booking.t) : View unit :=
  modify (fun s =>
    mkStore (listings s)
      (map (fun row =>
              if Booking.id row =? Booking.id booking then booking else row)
           (bookings s))).

Definition cancel (request_user pk : Z) : View Response :=
  booking <- get_object request_user pk ;;
  if status_in (Booking.status booking) [cancelled; completed] then
    ret (mkResponse
           (ErrorData
              (String.append "Cannot cancel a booking that is already "
                 (status_name (Booking.status booking))))
           HTTP_400_BAD_REQUEST)
  else
    let booking := Booking.set_status booking cancelled in
    save booking ;;;
    ret (mkResponse
           (BookingMessage "Booking cancelled successfully" booking)
           HTTP_200_OK).

Definition confirm (request_user pk : Z) : View Response :=
  booking <- get_object request_user pk ;;
  if negb (status_eqb (Booking.status booking) pending) then
    ret (mkResponse
           (ErrorData
              (String.append "Cannot confirm a booking that is "
                 (status_name (Booking.status booking))))
           HTTP_400_BAD_REQUEST)
  else
    let booking := Booking.set_status booking confirmed in
    save booking ;;;
    ret (mkResponse
           (BookingMessage "Booking confirmed successfully" booking)
           HTTP_200_OK).

(** The validated fields of a create request. *)
Record validated_data : Set := mkData
  { listing : Z; check_in_date : Date.t; check_out_date : Date.t }.

(** The primary key the table hands to a new row. *)
Definition next_id (rows : list Booking.t) : Z :=
  1 + fold_right Z.max 0 (map Booking.id rows).

(** [serializer.save(user=self.request.user)]: insert one row made of the
    validated fields and the requesting user.  The row gets the next primary
    key and the column default of [status]; the new instance is returned
    (Python keeps it in [serializer.instance]). *)
Definition perform_create (request_user : Z) (serializer : validated_data)
  : View Booking.t :=
  rows <- gets bookings ;;
  let instance :=
    Booking.make (next_id rows) (listing serializer) request_user
      (check_in_date serializer) (check_out_date serializer) pending in
  modify (fun s => mkStore (listings s) (bookings s ++ [instance])) ;;;
  ret instance.

(** [permission_classes = [permissions.IsAuthenticated]], for every action *)
Definition permission_classes : list Permission := [IsAuthenticated].

End BookingViewSet.

(* ================================================================= *)
(** ** ReviewViewSet *)

Module Review.
(** The columns of [Review] that the view reads. *)
Record t : Set := make { id : Z; listing_id : Z; user : Z; rating : Z }.
End Review.

Module ReviewViewSet.
Section WithFields.

(** The coercion of the [listing_id] column (ORM code, outside [views.py]):
    any partial parser. *)
Variable IntegerField : string -> option Z.

(** [get_queryset] over the rows of [Review.objects.all()]; a value the
    column rejects raises. *)
Definition get_queryset (all : list Review.t) (query_params : QueryDict)
  : exn + list Review.t :=
  let queryset := all in
  let listing_id := get "listing_id" query_params in
  if truthy listing_id then
    match listing_id with
    | Some v =>
        match IntegerField v with
        | Some n => inr (filter (fun r => Review.listing_id r =? n) queryset)
        | None => inl ValidationError
        end
    | None => inl ValidationError
    end
  else inr queryset.

End WithFields.

(** [get_permissions]: the permission instances for [self.action]. *)
Definition get_permissions (action : string) : list Permission :=
  let permission_classes :=
    if existsb (String.eqb action)
         ["create"; "update"; "partial_update"; "destroy"]
    then [IsAuthenticated]
    else [AllowAny] in
  permission_classes.

End ReviewViewSet.

(* ================================================================= *)
(** ** Booking creation with its validation *)

Module Lifecycle.

(** A booking that still holds its dates. *)
Definition blocks (b : Booking.t) : bool :=
  status_in (Booking.status b) [pending; confirmed].

(** Modelled from the spec: [isAvailable] of section 4.1, the single-listing
    form of the overlap test; the validation code ([serializers.py]) is not
    among the sources.  A listing is free for [check_in, check_out) when no
    pending or confirmed booking [b] on it has
    [b.check_in < check_out] and [b.check_out > check_in]. *)
Definition isAvailable (listing : Listing.t) (check_in check_out : Date.t)
  : View bool :=
  gets (fun s =>
    negb (existsb
            (fun b =>
               (Booking.listing_id b =? Listing.id listing)
               && blocks b
               && (Date.ltb (Booking.check_in_date b) check_out
                   && Date.ltb check_in (Booking.check_out_date b)))
            (bookings s))).

(** Modelled from the spec: [createBooking] of section 4.2.  What is missing
    from the sources is the validation done by [BookingCreateSerializer]
    before [perform_create] runs: [check_in < check_out], the listing exists
    and is active, and the interval is re-validated with [isAvailable]
    against the current rows; the insertion itself is [perform_create]. *)
Definition createBooking (actor listing_pk : Z) (check_in check_out : Date.t)
  : View Booking.t :=
  if negb (Date.ltb check_in check_out) then raise ValidationError
  else
    rows <- gets listings ;;
    match find (fun l => Listing.id l =? listing_pk) rows with
    | None => raise Http404
    | Some listing =>
        if negb (Listing.is_active listing) then raise Http404
        else
          free <- isAvailable listing check_in check_out ;;
          if free then
            BookingViewSet.perform_create actor
              (BookingViewSet.mkData listing_pk check_in check_out)
          else raise Conflict
    end.





End Lifecycle.

(* ================================================================= *)
(** ** Properties the views are checked against *)

(** Day [d] lies in the half-open stay [check_in, check_out). *)
Definition occupies (check_in check_out d : Date.t) : Prop :=
  Date.le check_in d /\ Date.lt d check_out.

(** Two half-open intervals share a day. *)
Definition intervals_meet (in1 out1 in2 out2 : Date.t) : Prop :=
  exists d, occupies in1 out1 d /\ occupies in2 out2 d.

(** Booking [b] holds its dates and they overlap [check_in, check_out). *)
Definition conflicting (check_in check_out : Date.t) (b : Booking.t) : Prop :=
  (Booking.status b = pending \/ Booking.status b = confirmed)
  /\ Date.lt (Booking.check_in_date b) check_out
  /\ Date.lt check_in (Booking.check_out_date b).

(** Listing [l] has a conflicting booking among [rows]. *)
Definition booked (rows : list Booking.t) (check_in check_out : Date.t)
  (l : Listing.t) : Prop :=
  exists b, In b rows /\ Booking.listing_id b = Listing.id l
            /\ conflicting check_in check_out b.

Definition unique_ids (s : Store) : Prop :=
  NoDup (map Booking.id (bookings s)).




(** The bookings a user can see. *)
Definition owned_by (u : Z) (s : Store) : list Booking.t :=
  filter (fun b => Booking.user b =? u) (bookings s).

(** The bookings of everybody else. *)
Definition owned_by_others (u : Z) (s : Store) : list Booking.t :=
  filter (fun b => negb (Booking.user b =? u)) (bookings s).

(** The store with the row of key [pk] deleted. *)
Definition without_row (pk : Z) (s : Store) : Store :=
  mkStore (listings s)
    (filter (fun b => negb (Booking.id b =? pk)) (bookings s)).

(** A price bound as the price stage sees it: no parameter, or a parameter
    the decimal column accepts. *)
Definition bound (DecimalField : string -> option Z) (v : option string)
  (b : option Z) : Prop :=
  match v with
  | None => b = None
  | Some text => exists p, DecimalField text = Some p /\ b = Some p
  end.

(** Price [p] respects the optional bounds. *)
Definition within (lo hi : option Z) (p : Z) : Prop :=
  match lo with Some m => m <= p | None => True end
  /\ match hi with Some m => p <= m | None => True end.

(** A price parameter is present and the decimal column rejects it. *)
Definition price_rejected (DecimalField : string -> option Z) (q : QueryDict)
  : Prop :=
  (exists v, get "min_price" q = Some v /\ DecimalField v = None)
  \/ (exists v, get "max_price" q = Some v /\ DecimalField v = None).

(** Every booking refers to a stored listing. *)
Definition bookings_refer (s : Store) : Prop :=
  forall b, In b (bookings s) ->
            exists l, In l (listings s) /\ Listing.id l = Booking.listing_id b.

(** A terminal status. *)
Definition terminal (st : Status) : Prop := st = cancelled \/ st = completed.

(* ================================================================= *)
(** ** Field coercions and stores for the worked examples *)

Module Examples.

Definition digit (c : Ascii.ascii) : option Z :=
  let n := Z.of_nat (Ascii.nat_of_ascii c) in
  if (48 <=? n) && (n <=? 57) then Some (n - 48) else None.

Fixpoint number (acc : Z) (s : string) : option Z :=
  match s with
  | EmptyString => Some acc
  | String c rest =>
      match digit c with
      | Some d => number (10 * acc + d) rest
      | None => None
      end
  end.

(** A date field that accepts exactly [YYYY-MM-DD]. *)
Definition iso_date (s : string) : option Date.t :=
  if (Nat.eqb (String.length s) 10
      && String.eqb (substring 4 1 s) "-"
      && String.eqb (substring 7 1 s) "-")%bool
  then
    match number 0 (substring 0 4 s),
          number 0 (substring 5 2 s),
          number 0 (substring 8 2 s) with
    | Some y, Some m, Some d => Some (Date.make y m d)
    | _, _, _ => None
    end
  else None.

(** A decimal field with two places that accepts whole amounts. *)
Definition whole_amount (s : string) : option Z :=
  match s with
  | EmptyString => None
  | _ => option_map (Z.mul 100) (number 0 s)
  end.

Definition jun (d : Z) : Date.t := Date.make 2024 6 d.

Definition villa : Listing.t := Listing.make 1 12000 true 7.
Definition cabin : Listing.t := Listing.make 2 4500 true 7.
Definition closed_loft : Listing.t := Listing.make 3 8000 false 8.

Definition catalog : list Listing.t := [villa; cabin; closed_loft].

Definition stay_1_5 : Booking.t :=
  Booking.make 1 1 10 (jun 1) (jun 5) pending.
Definition stay_cabin : Booking.t :=
  Booking.make 2 2 11 (jun 3) (jun 7) confirmed.

Definition empty_store : Store := mkStore catalog [].
Definition busy_store : Store := mkStore catalog [stay_1_5; stay_cabin].

Definition dates (a b : string) : QueryDict :=
  [("check_in_date", a); ("check_out_date", b)].

End Examples.

(* ================================================================= *)
(** * Facts *)

(** ** Dates form a strict order *)

Module DateFacts.

Lemma lt_irrefl (a : Date.t) : Date.ltb a a = false.
Proof. Date.to_Z. Qed.

Lemma lt_trans (a b c : Date.t) : Date.lt a b -> Date.lt b c -> Date.lt a c.
Proof. intros; Date.to_Z. Qed.

Lemma le_lt_trans (a b c : Date.t) : Date.le a b -> Date.lt b c -> Date.lt a c.
Proof. intros; Date.to_Z. Qed.

Lemma lt_le_trans (a b c : Date.t) : Date.lt a b -> Date.le b c -> Date.lt a c.
Proof. intros; Date.to_Z. Qed.

Lemma le_refl (a : Date.t) : Date.le a a.
Proof. Date.to_Z. Qed.

Lemma lt_le_incl (a b : Date.t) : Date.lt a b -> Date.le a b.
Proof. intros; Date.to_Z. Qed.

Lemma le_or_lt (a b : Date.t) : Date.le a b \/ Date.lt b a.
Proof.
  unfold Date.le, Date.lt, Date.leb.
  destruct (Date.ltb b a); cbn; auto.
Qed.

Lemma lt_not_le (a b : Date.t) : Date.lt a b -> ~ Date.le b a.
Proof.
  unfold Date.le, Date.lt, Date.leb. intros ->. cbn. discriminate.
Qed.

End DateFacts.

Create HintDb dates.
#[local] Hint Resolve DateFacts.le_refl DateFacts.lt_le_incl : dates.

(** ** Statuses *)


Lemma blocks_iff (b : Booking.t) :
  Lifecycle.blocks b = true
  <-> Booking.status b = pending \/ Booking.status b = confirmed.
Proof.
  unfold Lifecycle.blocks, status_in.
  destruct (Booking.status b); cbn; intuition congruence.
Qed.

Lemma listed_status_iff (st : Status) :
  status_in st [confirmed; pending] = true <-> st = pending \/ st = confirmed.
Proof. destruct st; cbn; intuition congruence. Qed.

(** ** The overlap test and shared days *)

Lemma Q_overlap_iff (ci co : Date.t) (b : Booking.t) :
  ListingViewSet.Q_overlap ci co b = true
  <-> Date.lt (Booking.check_in_date b) co
      /\ Date.lt ci (Booking.check_out_date b).
Proof. unfold ListingViewSet.Q_overlap. apply andb_true_iff. Qed.

Lemma meet_passes_test (in1 out1 in2 out2 : Date.t) :
  intervals_meet in1 out1 in2 out2 ->
  Date.lt in2 out1 /\ Date.lt in1 out2.
Proof.
  intros (d & [Hi1 Ho1] & [Hi2 Ho2]). split.
  - exact (DateFacts.le_lt_trans _ _ _ Hi2 Ho1).
  - exact (DateFacts.le_lt_trans _ _ _ Hi1 Ho2).
Qed.

Lemma test_passes_meet (in1 out1 in2 out2 : Date.t) :
  Date.lt in1 out1 -> Date.lt in2 out2 ->
  Date.lt in2 out1 -> Date.lt in1 out2 ->
  intervals_meet in1 out1 in2 out2.
Proof.
  intros V1 V2 H21 H12.
  destruct (DateFacts.le_or_lt in1 in2) as [Hle | Hlt].
  - exists in2. unfold occupies. auto with dates.
  - exists in1. unfold occupies. auto with dates.
Qed.


(* ================================================================= *)
(** ** The listing queryset *)

Lemma get_dates (a b : string) :
  get "check_in_date" (Examples.dates a b) = Some a
  /\ get "check_out_date" (Examples.dates a b) = Some b
  /\ get "min_price" (Examples.dates a b) = None
  /\ get "max_price" (Examples.dates a b) = None.
Proof. repeat split. Qed.

Lemma truthy_Some (v : string) : v <> "" -> truthy (Some v) = true.
Proof.
  intros Hv. cbn. apply negb_true_iff.
  destruct (String.eqb_spec v ""); congruence.
Qed.

Lemma in_exclude_id_in (ids : list Z) (qs : list Listing.t) (l : Listing.t) :
  In l (ListingViewSet.exclude_id_in ids qs)
  <-> In l qs /\ ~ In (Listing.id l) ids.
Proof.
  unfold ListingViewSet.exclude_id_in. rewrite filter_In.
  rewrite negb_true_iff, <- not_true_iff_false, existsb_exists.
  split; intros [Hin Hno]; split; trivial.
  - intros Hid. apply Hno. exists (Listing.id l).
    split; [exact Hid | apply Z.eqb_refl].
  - intros (x & Hx & Heq). apply Z.eqb_eq in Heq. subst x. contradiction.
Qed.

Lemma in_overlapping_bookings (ci co : Date.t) (s : Store) (lid : Z) :
  In lid (map Booking.listing_id
            (filter (fun b =>
                       ListingViewSet.Q_overlap ci co b
                       && status_in (Booking.status b) [confirmed; pending])
                    (bookings s)))
  <-> exists b, In b (bookings s) /\ Booking.listing_id b = lid
                /\ conflicting ci co b.
Proof.
  rewrite in_map_iff. unfold conflicting.
  split.
  - intros (b & Hl & Hb). apply filter_In in Hb as [Hb Ht].
    apply andb_true_iff in Ht as [Hq Hs].
    apply Q_overlap_iff in Hq. apply listed_status_iff in Hs.
    exists b. tauto.
  - intros (b & Hb & Hl & Hs & Hq). exists b. split; [exact Hl|].
    apply filter_In. split; [exact Hb|].
    apply andb_true_iff. split.
    + apply Q_overlap_iff. exact Hq.
    + apply listed_status_iff. exact Hs.
Qed.

Section ListingFacts.

Variable DateField : string -> option Date.t.
Variable DecimalField : string -> option Z.

Let filter_dates := ListingViewSet.filter_dates DateField.
Let filter_price := ListingViewSet.filter_price DecimalField.
Let get_queryset := ListingViewSet.get_queryset DateField DecimalField.
Let available := ListingViewSet.available DateField DecimalField.

(** With both dates given and accepted, the date stage is one exclusion. *)
Lemma filter_dates_given (q : QueryDict) (cands : list Listing.t) (s : Store)
  (a b : string) (ci co : Date.t) :
  get "check_in_date" q = Some a -> get "check_out_date" q = Some b ->
  a <> "" -> b <> "" ->
  DateField a = Some ci -> DateField b = Some co ->
  filter_dates q cands s
  = (inr (ListingViewSet.exclude_id_in
            (map Booking.listing_id
               (filter (fun b =>
                          ListingViewSet.Q_overlap ci co b
                          && status_in (Booking.status b) [confirmed; pending])
                       (bookings s)))
            cands), s).
Proof.
  intros Ha Hb Hna Hnb Hci Hco.
  unfold filter_dates, ListingViewSet.filter_dates.
  rewrite Ha, Hb, (truthy_Some a Hna), (truthy_Some b Hnb). cbn [andb].
  unfold bind, to_python. rewrite Hci, Hco. reflexivity.
Qed.

(** With a date missing or empty, the date stage does nothing. *)
Lemma filter_dates_absent (q : QueryDict) (cands : list Listing.t) (s : Store) :
  truthy (get "check_in_date" q) = false
  \/ truthy (get "check_out_date" q) = false ->
  filter_dates q cands s = (inr cands, s).
Proof.
  intros H. unfold filter_dates, ListingViewSet.filter_dates.
  destruct H as [-> | ->]; [|rewrite andb_false_r]; reflexivity.
Qed.

Lemma filter_price_absent (q : QueryDict) (cands : list Listing.t) (s : Store) :
  get "min_price" q = None -> get "max_price" q = None ->
  filter_price q cands s = (inr cands, s).
Proof.
  intros Hmin Hmax. unfold filter_price, ListingViewSet.filter_price.
  rewrite Hmin, Hmax. reflexivity.
Qed.

(** The store comes back as it went in. *)
Lemma filter_price_reads (q : QueryDict) (cands : list Listing.t) (s : Store) :
  store_after (filter_price q cands s) = s.
Proof.
  unfold filter_price, ListingViewSet.filter_price, bind, to_python.
  destruct (get "min_price" q) as [v|], (get "max_price" q) as [w|]; cbn;
    try destruct (DecimalField v); try destruct (DecimalField w);
    reflexivity.
Qed.

Lemma filter_dates_reads (q : QueryDict) (cands : list Listing.t) (s : Store) :
  store_after (filter_dates q cands s) = s.
Proof.
  unfold filter_dates, ListingViewSet.filter_dates, bind, to_python.
  destruct (truthy (get "check_in_date" q) && truthy (get "check_out_date" q));
    [|reflexivity].
  destruct (get "check_out_date" q) as [v|]; [|reflexivity].
  destruct (DateField v); [|reflexivity].
  destruct (get "check_in_date" q) as [w|]; [|reflexivity].
  destruct (DateField w); reflexivity.
Qed.

Lemma get_queryset_reads (q : QueryDict) (s : Store) :
  store_after (get_queryset q s) = s.
Proof.
  unfold get_queryset, ListingViewSet.get_queryset, bind.
  unfold ListingViewSet.queryset, gets.
  pose proof (filter_price_reads q (filter Listing.is_active (listings s)) s)
    as Hp.
  unfold filter_price in Hp.
  destruct (ListingViewSet.filter_price DecimalField q _ s) as [[e|r] s1];
    cbn in Hp; subst s1; [reflexivity|].
  apply filter_dates_reads.
Qed.

Lemma get_queryset_unpriced (q : QueryDict) (s : Store) :
  get "min_price" q = None -> get "max_price" q = None ->
  get_queryset q s = filter_dates q (filter Listing.is_active (listings s)) s.
Proof.
  intros Hmin Hmax.
  unfold get_queryset, ListingViewSet.get_queryset, bind at 1.
  unfold ListingViewSet.queryset, gets, bind.
  pose proof (filter_price_absent q (filter Listing.is_active (listings s)) s
                Hmin Hmax) as Hp.
  unfold filter_price in Hp. rewrite Hp. reflexivity.
Qed.

Lemma get_queryset_undated (q : QueryDict) (s : Store) :
  truthy (get "check_in_date" q) = false
  \/ truthy (get "check_out_date" q) = false ->
  get_queryset q s = filter_price q (filter Listing.is_active (listings s)) s.
Proof.
  intros H.
  unfold get_queryset, ListingViewSet.get_queryset, bind at 1.
  unfold ListingViewSet.queryset, gets, bind.
  pose proof (filter_price_reads q (filter Listing.is_active (listings s)) s)
    as Hs.
  unfold filter_price in *.
  destruct (ListingViewSet.filter_price DecimalField q _ s) as [[e|r] s1];
    cbn in Hs; subst s1; [reflexivity|].
  apply (filter_dates_absent q r s H).
Qed.



(** With both dates given, a row survives the date stage exactly when it was
    a candidate and is not booked over the requested interval. *)
Lemma filter_dates_rows (q : QueryDict) (cands : list Listing.t) (s : Store)
  (a b : string) (ci co : Date.t) :
  get "check_in_date" q = Some a -> get "check_out_date" q = Some b ->
  a <> "" -> b <> "" ->
  DateField a = Some ci -> DateField b = Some co ->
  exists rows,
    filter_dates q cands s = (inr rows, s)
    /\ (exists keep, rows = filter keep cands)
    /\ (forall l, In l rows
                  <-> In l cands /\ ~ booked (bookings s) ci co l).
Proof.
  intros Ha Hb Hna Hnb Hci Hco.
  eexists. split; [apply (filter_dates_given q cands s a b ci co); assumption|].
  split; [eexists; reflexivity|].
  intros l. rewrite in_exclude_id_in, in_overlapping_bookings.
  unfold booked. tauto.
Qed.

(** C2. With both dates present and check-in before check-out, the
    availability filter returns the candidate listings minus exactly those
    with a pending or confirmed booking [b] such that
    [b.check_in_date < check_out] and [b.check_out_date > check_in]; the rows
    that stay keep their order, and the store is left as it was.  Without
    price parameters the whole listing query is this filter applied to the
    active listings. *)
Theorem availability_filter_exact (q : QueryDict) (cands : list Listing.t)
  (s : Store) (a b : string) (ci co : Date.t) :
  get "check_in_date" q = Some a -> get "check_out_date" q = Some b ->
  a <> "" -> b <> "" ->
  DateField a = Some ci -> DateField b = Some co ->
  Date.lt ci co ->
  exists rows,
    filter_dates q cands s = (inr rows, s)
    /\ (exists keep, rows = filter keep cands)
    /\ (forall l, In l rows
                  <-> In l cands /\ ~ booked (bookings s) ci co l)
    /\ (get "min_price" q = None -> get "max_price" q = None ->
        cands = filter Listing.is_active (listings s) ->
        get_queryset q s = (inr rows, s)).
Proof.
  intros Ha Hb Hna Hnb Hci Hco _.
  destruct (filter_dates_rows q cands s a b ci co Ha Hb Hna Hnb Hci Hco)
    as (rows & Hrun & Hkeep & Hrows).
  exists rows.
  split; [exact Hrun|]. split; [exact Hkeep|]. split; [exact Hrows|].
  intros Hmin Hmax Hc.
  rewrite (get_queryset_unpriced q s Hmin Hmax), <- Hc. exact Hrun.
Qed.

(** C7. When either date is absent (or empty) no date filtering is applied:
    the listing query is the price stage alone.  With no dates and no price
    bounds it returns the catalog of active listings unchanged and in the same
    order, and a catalog whose listings are all active comes back whole. *)
Theorem no_filter_default (q : QueryDict) (s : Store) :
  truthy (get "check_in_date" q) = false
  \/ truthy (get "check_out_date" q) = false ->
  (forall cands, filter_dates q cands s = (inr cands, s))
  /\ get_queryset q s
     = filter_price q (filter Listing.is_active (listings s)) s
  /\ (get "min_price" q = None -> get "max_price" q = None ->
      get_queryset q s = (inr (filter Listing.is_active (listings s)), s)
      /\ (forallb Listing.is_active (listings s) = true ->
          get_queryset q s = (inr (listings s), s))).
Proof.
  intros H. split; [|split].
  - intros cands. apply filter_dates_absent, H.
  - apply get_queryset_undated, H.
  - intros Hmin Hmax.
    assert (Hq : get_queryset q s
                 = (inr (filter Listing.is_active (listings s)), s)).
    { rewrite (get_queryset_undated q s H).
      apply filter_price_absent; assumption. }
    split; [exact Hq|].
    intros Hall. rewrite Hq. f_equal. f_equal.
    rewrite forallb_forall in Hall.
    clear Hq. induction (listings s) as [|l ls IH]; [reflexivity|].
    cbn. rewrite (Hall l (or_introl eq_refl)). f_equal.
    apply IH. intros x Hx. apply Hall. right. exact Hx.
Qed.


End ListingFacts.

(* ================================================================= *)
(** ** The booking views *)

Lemma same_id_same_row (s : Store) (x y : Booking.t) :
  unique_ids s -> In x (bookings s) -> In y (bookings s) ->
  Booking.id x = Booking.id y -> x = y.
Proof.
  unfold unique_ids. induction (bookings s) as [|r rows IH]; cbn.
  - contradiction.
  - intros Hnd Hx Hy Hid. inversion Hnd as [|? ? Hnot Hnd']; subst.
    destruct Hx as [<- | Hx], Hy as [<- | Hy]; auto.
    + exfalso. apply Hnot. rewrite Hid. apply in_map. exact Hy.
    + exfalso. apply Hnot. rewrite <- Hid. apply in_map. exact Hx.
Qed.

Lemma get_object_eq (u pk : Z) (s : Store) :
  BookingViewSet.get_object u pk s
  = match find (fun b => Booking.id b =? pk) (owned_by u s) with
    | Some b => (inr b, s)
    | None => (inl Http404, s)
    end.
Proof.
  unfold BookingViewSet.get_object, BookingViewSet.get_queryset, bind, gets.
  unfold owned_by.
  destruct (find _ _); reflexivity.
Qed.

Lemma get_object_found (u pk : Z) (s : Store) (b : Booking.t) :
  outcome (BookingViewSet.get_object u pk s) = inr b ->
  find (fun b => Booking.id b =? pk) (owned_by u s) = Some b
  /\ In b (bookings s) /\ Booking.user b = u /\ Booking.id b = pk.
Proof.
  rewrite get_object_eq.
  destruct (find _ (owned_by u s)) as [b'|] eqn:Hf; cbn; [|discriminate].
  intros Heq. inversion Heq; subst b'. split; [reflexivity|].
  apply find_some in Hf as [Hin Hid]. apply filter_In in Hin as [Hin Hu].
  apply Z.eqb_eq in Hid, Hu. auto.
Qed.

Lemma confirm_eq (u pk : Z) (s : Store) :
  BookingViewSet.confirm u pk s
  = match find (fun b => Booking.id b =? pk) (owned_by u s) with
    | None => (inl Http404, s)
    | Some b =>
        if negb (status_eqb (Booking.status b) pending) then
          (inr (mkResponse
                  (ErrorData
                     (String.append "Cannot confirm a booking that is "
                        (status_name (Booking.status b))))
                  HTTP_400_BAD_REQUEST), s)
        else
          (inr (mkResponse
                  (BookingMessage "Booking confirmed successfully"
                     (Booking.set_status b confirmed))
                  HTTP_200_OK),
           store_after
             (BookingViewSet.save (Booking.set_status b confirmed) s))
    end.
Proof.
  unfold BookingViewSet.confirm. unfold bind at 1.
  rewrite get_object_eq.
  destruct (find _ (owned_by u s)) as [b|]; [|reflexivity].
  destruct (negb (status_eqb (Booking.status b) pending)); reflexivity.
Qed.

Lemma cancel_eq (u pk : Z) (s : Store) :
  BookingViewSet.cancel u pk s
  = match find (fun b => Booking.id b =? pk) (owned_by u s) with
    | None => (inl Http404, s)
    | Some b =>
        if status_in (Booking.status b) [cancelled; completed] then
          (inr (mkResponse
                  (ErrorData
                     (String.append "Cannot cancel a booking that is already "
                        (status_name (Booking.status b))))
                  HTTP_400_BAD_REQUEST), s)
        else
          (inr (mkResponse
                  (BookingMessage "Booking cancelled successfully"
                     (Booking.set_status b cancelled))
                  HTTP_200_OK),
           store_after
             (BookingViewSet.save (Booking.set_status b cancelled) s))
    end.
Proof.
  unfold BookingViewSet.cancel. unfold bind at 1.
  rewrite get_object_eq.
  destruct (find _ (owned_by u s)) as [b|]; [|reflexivity].
  destruct (status_in (Booking.status b) [cancelled; completed]); reflexivity.
Qed.


Lemma find_after_rewrite (u pk : Z) (b b' : Booking.t)
  (rows : list Booking.t) :
  find (fun r => Booking.id r =? pk)
    (filter (fun r => Booking.user r =? u) rows) = Some b ->
  Booking.user b' = u -> Booking.id b' = pk ->
  find (fun r => Booking.id r =? pk)
    (filter (fun r => Booking.user r =? u)
       (map (fun row => if Booking.id row =? pk then b' else row) rows))
  = Some b'.
Proof.
  intros Hf Hu Hid. induction rows as [|x rows IH]; [discriminate|].
  cbn [map filter].
  destruct (Z.eqb_spec (Booking.id x) pk) as [Hx|Hx].
  - rewrite Hu, Z.eqb_refl. cbn [find]. rewrite Hid, Z.eqb_refl. reflexivity.
  - cbn [filter] in Hf. destruct (Booking.user x =? u).
    + cbn [find] in *.
      destruct (Z.eqb_spec (Booking.id x) pk); [contradiction|]. auto.
    + auto.
Qed.

(** After a save, the owner's lookup of that key returns the saved row. *)
Lemma get_object_after_save (u pk : Z) (s : Store) (b : Booking.t)
  (st : Status) :
  find (fun b => Booking.id b =? pk) (owned_by u s) = Some b ->
  Booking.user b = u -> Booking.id b = pk ->
  find (fun b => Booking.id b =? pk)
    (owned_by u
       (store_after (BookingViewSet.save (Booking.set_status b st) s)))
  = Some (Booking.set_status b st).
Proof.
  intros Hf Hu Hid. unfold owned_by in *.
  unfold BookingViewSet.save, modify, store_after.
  cbn [snd bookings Booking.id Booking.set_status]. rewrite Hid.
  apply (find_after_rewrite u pk b); trivial.
Qed.



(** ** Owner scoping *)

Lemma filter_map_commute {A} (p : A -> bool) (f : A -> A) (l : list A) :
  (forall x, In x l -> p (f x) = p x) ->
  filter p (map f l) = map f (filter p l).
Proof.
  induction l as [|x l IH]; intros H; [reflexivity|].
  cbn. rewrite (H x (or_introl eq_refl)).
  destruct (p x); cbn; rewrite IH; auto; intros y Hy; apply H; right; exact Hy.
Qed.

Lemma filter_map_untouched {A} (p : A -> bool) (f : A -> A) (l : list A) :
  (forall x, In x l -> p (f x) = p x) ->
  (forall x, In x l -> p x = true -> f x = x) ->
  filter p (map f l) = filter p l.
Proof.
  intros Hp Hf. rewrite filter_map_commute by exact Hp.
  rewrite <- (map_id (filter p l)) at 2.
  apply map_ext_in. intros x Hx. apply filter_In in Hx as [Hx Hpx]. auto.
Qed.

(** A saved status change keeps every row with its owner. *)
Lemma save_keeps_owner (s : Store) (b : Booking.t) (st : Status) (u : Z)
  (x : Booking.t) :
  unique_ids s -> In b (bookings s) -> In x (bookings s) ->
  Booking.user
    (if Booking.id x =? Booking.id (Booking.set_status b st)
     then Booking.set_status b st else x)
  = Booking.user x.
Proof.
  intros Huniq Hb Hx. cbn [Booking.id Booking.set_status].
  destruct (Z.eqb_spec (Booking.id x) (Booking.id b)) as [Hid|]; trivial.
  rewrite (same_id_same_row s x b Huniq Hx Hb Hid). reflexivity.
Qed.

Lemma save_others (s : Store) (b : Booking.t) (st : Status) (u : Z) :
  unique_ids s -> In b (bookings s) -> Booking.user b = u ->
  owned_by_others u
    (store_after (BookingViewSet.save (Booking.set_status b st) s))
  = owned_by_others u s.
Proof.
  intros Huniq Hb Hu. unfold owned_by_others, BookingViewSet.save, modify.
  cbn [store_after snd bookings].
  apply filter_map_untouched.
  - intros x Hx. rewrite (save_keeps_owner s b st u x Huniq Hb Hx).
    reflexivity.
  - intros x Hx Hp. cbn [Booking.id Booking.set_status].
    destruct (Z.eqb_spec (Booking.id x) (Booking.id b)) as [Hid|]; trivial.
    rewrite (same_id_same_row s x b Huniq Hx Hb Hid) in Hp.
    rewrite Hu, Z.eqb_refl in Hp. discriminate.
Qed.

Lemma save_owned (s : Store) (b : Booking.t) (st : Status) (u : Z) :
  unique_ids s -> In b (bookings s) ->
  owned_by u (store_after (BookingViewSet.save (Booking.set_status b st) s))
  = map (fun row =>
           if Booking.id row =? Booking.id (Booking.set_status b st)
           then Booking.set_status b st else row)
        (owned_by u s).
Proof.
  intros Huniq Hb. unfold owned_by, BookingViewSet.save, modify.
  cbn [store_after snd bookings].
  apply filter_map_commute.
  intros x Hx. rewrite (save_keeps_owner s b st u x Huniq Hb Hx).
  reflexivity.
Qed.

Lemma filter_filter_implied {A} (p q : A -> bool) (l : list A) :
  (forall x, In x l -> p x = true -> q x = true) ->
  filter p (filter q l) = filter p l.
Proof.
  induction l as [|x l IH]; intros H; [reflexivity|].
  cbn [filter].
  assert (IH' : filter p (filter q l) = filter p l)
    by (apply IH; intros y Hy; apply H; right; exact Hy).
  destruct (p x) eqn:Hp.
  - rewrite (H x (or_introl eq_refl) Hp). cbn [filter]. rewrite Hp, IH'.
    reflexivity.
  - destruct (q x); cbn [filter]; rewrite ?Hp; exact IH'.
Qed.

Lemma not_owned_not_found (u pk : Z) (s : Store) (b : Booking.t) :
  unique_ids s -> In b (bookings s) -> Booking.id b = pk ->
  Booking.user b <> u ->
  find (fun r => Booking.id r =? pk) (owned_by u s) = None.
Proof.
  intros Huniq Hb Hid Hu.
  destruct (find _ (owned_by u s)) as [x|] eqn:Hf; trivial.
  apply find_some in Hf as [Hx Hxid]. apply filter_In in Hx as [Hx Hxu].
  apply Z.eqb_eq in Hxid, Hxu.
  rewrite (same_id_same_row s x b Huniq Hx Hb) in Hxu by congruence.
  contradiction.
Qed.

Lemma found_in_store (u pk : Z) (s : Store) (b : Booking.t) :
  find (fun r => Booking.id r =? pk) (owned_by u s) = Some b ->
  In b (bookings s) /\ Booking.user b = u.
Proof.
  intros Hf. apply find_some in Hf as [Hx _].
  apply filter_In in Hx as [Hx Hu]. apply Z.eqb_eq in Hu. auto.
Qed.

Ltac by_lookup Heq Hview Hf b :=
  rewrite !Heq, <- ?Hview;
  match goal with
  | |- context [find ?p ?l] => destruct (find p l) as [b|] eqn:Hf
  end.

(** C9. What the booking views show to and change for a requester [u]
    depends on, and touches, only the rows whose [user] is [u].  Two stores
    with the same rows of [u] give [u] the same answers from the list query,
    from [get_object], from [cancel] and from [confirm], and leave [u] with
    the same rows afterwards; the rows of other users are never changed; and
    a key that belongs to another user's row gets 404 from all three, as it
    does in the store where that row is deleted. *)
Theorem owner_scoping (u pk : Z) (s1 s2 : Store) :
  unique_ids s1 -> unique_ids s2 ->
  owned_by u s1 = owned_by u s2 ->
  (outcome (BookingViewSet.get_queryset u s1)
   = outcome (BookingViewSet.get_queryset u s2)
   /\ outcome (BookingViewSet.get_object u pk s1)
      = outcome (BookingViewSet.get_object u pk s2)
   /\ outcome (BookingViewSet.cancel u pk s1)
      = outcome (BookingViewSet.cancel u pk s2)
   /\ outcome (BookingViewSet.confirm u pk s1)
      = outcome (BookingViewSet.confirm u pk s2))
  /\ (owned_by u (store_after (BookingViewSet.cancel u pk s1))
      = owned_by u (store_after (BookingViewSet.cancel u pk s2))
      /\ owned_by u (store_after (BookingViewSet.confirm u pk s1))
         = owned_by u (store_after (BookingViewSet.confirm u pk s2)))
  /\ (store_after (BookingViewSet.get_queryset u s1) = s1
      /\ store_after (BookingViewSet.get_object u pk s1) = s1
      /\ owned_by_others u (store_after (BookingViewSet.cancel u pk s1))
         = owned_by_others u s1
      /\ owned_by_others u (store_after (BookingViewSet.confirm u pk s1))
         = owned_by_others u s1)
  /\ (forall b, In b (bookings s1) -> Booking.id b = pk ->
                Booking.user b <> u ->
        BookingViewSet.get_object u pk s1 = (inl Http404, s1)
        /\ BookingViewSet.cancel u pk s1 = (inl Http404, s1)
        /\ BookingViewSet.confirm u pk s1 = (inl Http404, s1)
        /\ outcome (BookingViewSet.get_object u pk (without_row pk s1))
           = inl Http404
        /\ outcome (BookingViewSet.cancel u pk (without_row pk s1))
           = inl Http404
        /\ outcome (BookingViewSet.confirm u pk (without_row pk s1))
           = inl Http404
        /\ owned_by u (without_row pk s1) = owned_by u s1).
Proof.
  intros Hu1 Hu2 Hview.
  split; [|split; [|split]].
  - split; [unfold BookingViewSet.get_queryset, gets, outcome; cbn;
            f_equal; exact Hview|].
    split; [by_lookup get_object_eq Hview Hf b; reflexivity|].
    split.
    + by_lookup cancel_eq Hview Hf b; [|reflexivity].
      destruct (status_in _ _); reflexivity.
    + by_lookup confirm_eq Hview Hf b; [|reflexivity].
      destruct (negb _); reflexivity.
  - split.
    + by_lookup cancel_eq Hview Hf b; [|exact Hview].
      destruct (status_in _ _); [exact Hview|].
      cbn [store_after snd fst].
      destruct (found_in_store u pk s1 b Hf) as [Hb1 _].
      rewrite Hview in Hf.
      destruct (found_in_store u pk s2 b Hf) as [Hb2 _].
      change (owned_by u
                (store_after
                   (BookingViewSet.save (Booking.set_status b cancelled) s1))
              = owned_by u
                  (store_after
                     (BookingViewSet.save (Booking.set_status b cancelled)
                        s2))).
      rewrite (save_owned s1 b cancelled u Hu1 Hb1).
      rewrite (save_owned s2 b cancelled u Hu2 Hb2).
      rewrite Hview. reflexivity.
    + by_lookup confirm_eq Hview Hf b; [|exact Hview].
      destruct (negb _); [exact Hview|].
      cbn [store_after snd fst].
      destruct (found_in_store u pk s1 b Hf) as [Hb1 _].
      rewrite Hview in Hf.
      destruct (found_in_store u pk s2 b Hf) as [Hb2 _].
      change (owned_by u
                (store_after
                   (BookingViewSet.save (Booking.set_status b confirmed) s1))
              = owned_by u
                  (store_after
                     (BookingViewSet.save (Booking.set_status b confirmed)
                        s2))).
      rewrite (save_owned s1 b confirmed u Hu1 Hb1).
      rewrite (save_owned s2 b confirmed u Hu2 Hb2).
      rewrite Hview. reflexivity.
  - split; [reflexivity|].
    split; [rewrite get_object_eq; destruct (find _ _); reflexivity|].
    split.
    + rewrite cancel_eq.
      destruct (find _ (owned_by u s1)) as [b|] eqn:Hf; [|reflexivity].
      destruct (status_in _ _); [reflexivity|].
      destruct (found_in_store u pk s1 b Hf) as [Hb Hub].
      exact (save_others s1 b cancelled u Hu1 Hb Hub).
    + rewrite confirm_eq.
      destruct (find _ (owned_by u s1)) as [b|] eqn:Hf; [|reflexivity].
      destruct (negb _); [reflexivity|].
      destruct (found_in_store u pk s1 b Hf) as [Hb Hub].
      exact (save_others s1 b confirmed u Hu1 Hb Hub).
  - intros b Hb Hid Hother.
    pose proof (not_owned_not_found u pk s1 b Hu1 Hb Hid Hother) as Hnone.
    assert (Hsame : owned_by u (without_row pk s1) = owned_by u s1).
    { unfold owned_by, without_row. cbn [bookings].
      clear Hnone.
      assert (Hall : forall x, In x (bookings s1) ->
                               (Booking.user x =? u) = true ->
                               negb (Booking.id x =? pk) = true).
      { intros x Hx Hxu. apply negb_true_iff.
        destruct (Z.eqb_spec (Booking.id x) pk) as [Hxid|]; trivial.
        apply Z.eqb_eq in Hxu.
        rewrite (same_id_same_row s1 x b Hu1 Hx Hb) in Hxu by congruence.
        contradiction. }
      apply filter_filter_implied. exact Hall. }
    rewrite get_object_eq, cancel_eq, confirm_eq, Hnone.
    rewrite !get_object_eq, !cancel_eq, !confirm_eq, Hsame, Hnone.
    repeat split; reflexivity || exact Hsame.
Qed.

(* ================================================================= *)
(** ** Creating bookings *)

Lemma next_id_above (rows : list Booking.t) (b : Booking.t) :
  In b rows -> Booking.id b < BookingViewSet.next_id rows.
Proof.
  unfold BookingViewSet.next_id.
  induction rows as [|x rows IH]; cbn [In map fold_right]; [contradiction|].
  intros [<- | Hin]; [lia|]. specialize (IH Hin). lia.
Qed.

Lemma next_id_fresh (rows : list Booking.t) :
  ~ In (BookingViewSet.next_id rows) (map Booking.id rows).
Proof.
  intros Hin. apply in_map_iff in Hin as (b & Hid & Hb).
  apply next_id_above in Hb. lia.
Qed.

Lemma taken_iff (l : Listing.t) (ci co : Date.t) (rows : list Booking.t) :
  existsb (fun b =>
             (Booking.listing_id b =? Listing.id l)
             && Lifecycle.blocks b
             && (Date.ltb (Booking.check_in_date b) co
                 && Date.ltb ci (Booking.check_out_date b)))
          rows = true
  <-> booked rows ci co l.
Proof.
  rewrite existsb_exists. unfold booked, conflicting.
  split; intros (b & Hb & H); exists b; (split; [exact Hb|]).
  - apply andb_true_iff in H as [H Hq]. apply andb_true_iff in H as [Hl Hs].
    apply Z.eqb_eq in Hl. apply blocks_iff in Hs.
    apply andb_true_iff in Hq. tauto.
  - destruct H as (Hl & Hs & Hq1 & Hq2).
    apply andb_true_iff. split; [apply andb_true_iff; split|].
    + apply Z.eqb_eq. exact Hl.
    + apply blocks_iff. exact Hs.
    + apply andb_true_iff. split; assumption.
Qed.

Lemma createBooking_eq (actor lpk : Z) (ci co : Date.t) (s : Store) :
  Lifecycle.createBooking actor lpk ci co s
  = if negb (Date.ltb ci co) then (inl ValidationError, s)
    else
      match find (fun l => Listing.id l =? lpk) (listings s) with
      | None => (inl Http404, s)
      | Some l =>
          if negb (Listing.is_active l) then (inl Http404, s)
          else if
            existsb (fun b =>
                       (Booking.listing_id b =? Listing.id l)
                       && Lifecycle.blocks b
                       && (Date.ltb (Booking.check_in_date b) co
                           && Date.ltb ci (Booking.check_out_date b)))
                    (bookings s)
          then (inl Conflict, s)
          else
            let b := Booking.make (BookingViewSet.next_id (bookings s))
                       lpk actor ci co pending in
            (inr b, mkStore (listings s) (bookings s ++ [b]))
      end.
Proof.
  unfold Lifecycle.createBooking.
  destruct (negb (Date.ltb ci co)); [reflexivity|].
  unfold bind at 1. unfold gets at 1.
  destruct (find _ (listings s)) as [l|]; [|reflexivity].
  destruct (negb (Listing.is_active l)); [reflexivity|].
  unfold bind at 1. unfold Lifecycle.isAvailable, gets.
  destruct (existsb _ (bookings s)); reflexivity.
Qed.

(** What a successful creation tells about the request and the store. *)
Lemma createBooking_ok (actor lpk : Z) (ci co : Date.t) (s s1 : Store)
  (A : Booking.t) :
  Lifecycle.createBooking actor lpk ci co s = (inr A, s1) ->
  Date.lt ci co
  /\ (exists l, find (fun l => Listing.id l =? lpk) (listings s) = Some l
                /\ Listing.id l = lpk /\ Listing.is_active l = true
                /\ ~ booked (bookings s) ci co l)
  /\ A = Booking.make (BookingViewSet.next_id (bookings s))
           lpk actor ci co pending
  /\ s1 = mkStore (listings s) (bookings s ++ [A]).
Proof.
  rewrite createBooking_eq.
  destruct (Date.ltb ci co) eqn:Hlt; cbn [negb]; [|discriminate].
  destruct (find _ (listings s)) as [l|] eqn:Hf; [|discriminate].
  destruct (Listing.is_active l) eqn:Hact; cbn [negb]; [|discriminate].
  destruct (existsb _ (bookings s)) eqn:Hex; [discriminate|].
  cbn. intros Heq. inversion Heq; subst. clear Heq.
  split; [exact Hlt|]. split; [|split; reflexivity].
  exists l. split; [reflexivity|].
  apply find_some in Hf as [_ Hid]. apply Z.eqb_eq in Hid.
  repeat split; trivial.
  intros Hb. apply taken_iff in Hb. congruence.
Qed.

(** C3. For an active listing and [check_in < check_out], [createBooking]
    inserts one new row with status pending, the actor as user and the
    requested listing and dates when no pending or confirmed booking of the
    listing overlaps the interval, and raises [Conflict], leaving the store
    alone, when one does.  In particular, whenever the availability filter
    drops the listing from its candidates for these dates, [createBooking]
    raises [Conflict]. *)
Theorem createBooking_validates (s : Store) (actor : Z) (L : Listing.t)
  (ci co : Date.t) :
  find (fun l => Listing.id l =? Listing.id L) (listings s) = Some L ->
  Listing.is_active L = true ->
  Date.lt ci co ->
  (~ booked (bookings s) ci co L ->
   exists b,
     Lifecycle.createBooking actor (Listing.id L) ci co s
     = (inr b, mkStore (listings s) (bookings s ++ [b]))
     /\ Booking.status b = pending
     /\ Booking.user b = actor
     /\ Booking.listing_id b = Listing.id L
     /\ Booking.check_in_date b = ci
     /\ Booking.check_out_date b = co
     /\ ~ In (Booking.id b) (map Booking.id (bookings s)))
  /\ (booked (bookings s) ci co L ->
      Lifecycle.createBooking actor (Listing.id L) ci co s
      = (inl Conflict, s))
  /\ (forall (DateField : string -> option Date.t) (q : QueryDict)
             (cands rows : list Listing.t) (a b : string),
        get "check_in_date" q = Some a -> get "check_out_date" q = Some b ->
        a <> "" -> b <> "" ->
        DateField a = Some ci -> DateField b = Some co ->
        In L cands ->
        outcome (ListingViewSet.filter_dates DateField q cands s)
        = inr rows ->
        ~ In L rows ->
        Lifecycle.createBooking actor (Listing.id L) ci co s
        = (inl Conflict, s)).
Proof.
  intros Hfind Hact Hlt.
  assert (Htaken : booked (bookings s) ci co L ->
                   Lifecycle.createBooking actor (Listing.id L) ci co s
                   = (inl Conflict, s)).
  { intros Hb. rewrite createBooking_eq, Hlt, Hfind, Hact. cbn [negb].
    apply taken_iff in Hb. rewrite Hb. reflexivity. }
  split; [|split; [exact Htaken|]].
  - intros Hfree. eexists.
    rewrite createBooking_eq, Hlt, Hfind, Hact. cbn [negb].
    destruct (existsb _ (bookings s)) eqn:Hex.
    + apply taken_iff in Hex. contradiction.
    + cbn. split; [reflexivity|].
      repeat split. apply next_id_fresh.
  - intros DateField q cands rows a b Ha Hb Hna Hnb Hci Hco Hin Hrun Hout.
    destruct (filter_dates_rows DateField (fun _ => None) q cands s a b ci co
                Ha Hb Hna Hnb Hci Hco) as (rows' & Hrun' & _ & Hrows).
    rewrite Hrun' in Hrun. cbn in Hrun. inversion Hrun; subst rows'.
    apply Htaken.
    destruct (existsb (fun b0 =>
                (Booking.listing_id b0 =? Listing.id L)
                && Lifecycle.blocks b0
                && (Date.ltb (Booking.check_in_date b0) co
                    && Date.ltb ci (Booking.check_out_date b0)))
              (bookings s)) eqn:Hex.
    + apply taken_iff. exact Hex.
    + exfalso. apply Hout. apply Hrows. split; [exact Hin|].
      intros Hbk. apply taken_iff in Hbk. congruence.
Qed.

Lemma find_new_row (u pk : Z) (rows : list Booking.t) (A : Booking.t) :
  Booking.id A = pk -> Booking.user A = u ->
  (forall x, In x rows -> Booking.id x <> pk) ->
  find (fun r => Booking.id r =? pk)
    (filter (fun r => Booking.user r =? u) (rows ++ [A])) = Some A.
Proof.
  intros Hid Hu Hfresh. induction rows as [|x rows IH]; cbn [app filter].
  - rewrite Hu, Z.eqb_refl. cbn [find]. rewrite Hid, Z.eqb_refl. reflexivity.
  - assert (IH' := IH (fun y Hy => Hfresh y (or_intror Hy))).
    destruct (Booking.user x =? u); [|exact IH'].
    cbn [find].
    destruct (Z.eqb_spec (Booking.id x) pk) as [Hx|]; [|exact IH'].
    exfalso. exact (Hfresh x (or_introl eq_refl) Hx).
Qed.

Lemma rewrite_new_row (rows : list Booking.t) (A A' : Booking.t) :
  Booking.id A' = Booking.id A ->
  (forall x, In x rows -> Booking.id x <> Booking.id A) ->
  map (fun row => if Booking.id row =? Booking.id A' then A' else row)
      (rows ++ [A])
  = rows ++ [A'].
Proof.
  intros Hid Hfresh. rewrite map_app. cbn [map].
  rewrite Hid, Z.eqb_refl. f_equal.
  rewrite <- (map_id rows) at 2. apply map_ext_in. intros x Hx.
  destruct (Z.eqb_spec (Booking.id x) (Booking.id A)) as [Hx'|]; trivial.
  exfalso. exact (Hfresh x Hx Hx').
Qed.

(** A row that does not hold its dates never counts as a conflict. *)
Lemma booked_app_released (rows : list Booking.t) (A : Booking.t)
  (ci co : Date.t) (l : Listing.t) :
  Lifecycle.blocks A = false ->
  (booked (rows ++ [A]) ci co l <-> booked rows ci co l).
Proof.
  intros Hrel. unfold booked. split.
  - intros (b & Hb & Hl & Hc). apply in_app_or in Hb as [Hb | [<- | []]].
    + exists b. auto.
    + exfalso. destruct Hc as [Hs _]. apply blocks_iff in Hs. congruence.
  - intros (b & Hb & H). exists b. split; [apply in_or_app; auto | exact H].
Qed.

Lemma booked_same_id (rows : list Booking.t) (ci co : Date.t)
  (l l' : Listing.t) :
  Listing.id l = Listing.id l' -> booked rows ci co l -> booked rows ci co l'.
Proof.
  intros Hid (b & Hb & Hl & Hc). exists b. rewrite <- Hid. auto.
Qed.

(** C8. After booking A was created for dates D on listing L and then
    cancelled by its owner, the cancel succeeds, A counts in no overlap check
    any more (for any dates and listing the booked listings are those of the
    store before A), the availability filter for D returns every candidate
    with L's key, and creating booking B for the same D on L, by any actor,
    succeeds with status pending. *)
Theorem cancellation_frees_capacity (s s1 : Store) (actor other lpk : Z)
  (ci co : Date.t) (A : Booking.t) :
  Lifecycle.createBooking actor lpk ci co s = (inr A, s1) ->
  exists s2,
    BookingViewSet.cancel actor (Booking.id A) s1
    = (inr (mkResponse
              (BookingMessage "Booking cancelled successfully"
                 (Booking.set_status A cancelled))
              HTTP_200_OK), s2)
    /\ bookings s2 = bookings s ++ [Booking.set_status A cancelled]
    /\ listings s2 = listings s
    /\ (forall ci' co' l,
          booked (bookings s2) ci' co' l <-> booked (bookings s) ci' co' l)
    /\ (forall (DateField : string -> option Date.t) (q : QueryDict)
               (cands : list Listing.t) (a b : string),
          get "check_in_date" q = Some a ->
          get "check_out_date" q = Some b ->
          a <> "" -> b <> "" ->
          DateField a = Some ci -> DateField b = Some co ->
          exists rows,
            ListingViewSet.filter_dates DateField q cands s2 = (inr rows, s2)
            /\ forall L, In L cands -> Listing.id L = lpk -> In L rows)
    /\ exists B s3,
         Lifecycle.createBooking other lpk ci co s2 = (inr B, s3)
         /\ Booking.status B = pending
         /\ Booking.user B = other
         /\ Booking.listing_id B = lpk
         /\ Booking.check_in_date B = ci
         /\ Booking.check_out_date B = co
         /\ In B (bookings s3).
Proof.
  intros Hcreate.
  destruct (createBooking_ok actor lpk ci co s s1 A Hcreate)
    as (Hlt & (l & Hfind & Hlid & Hact & Hfree) & HA & Hs1).
  assert (Hfresh : forall x, In x (bookings s) -> Booking.id x <> Booking.id A).
  { intros x Hx Heq. apply next_id_above in Hx.
    assert (HAid : Booking.id A = BookingViewSet.next_id (bookings s))
      by (rewrite HA; reflexivity).
    lia. }
  assert (HAu : Booking.user A = actor) by (rewrite HA; reflexivity).
  assert (HAs : Booking.status A = pending) by (rewrite HA; reflexivity).
  set (A' := Booking.set_status A cancelled).
  set (s2 := mkStore (listings s) (bookings s ++ [A'])).
  assert (Hcancel :
    BookingViewSet.cancel actor (Booking.id A) s1
    = (inr (mkResponse
              (BookingMessage "Booking cancelled successfully" A')
              HTTP_200_OK), s2)).
  { rewrite cancel_eq. unfold owned_by. rewrite Hs1. cbn [bookings].
    rewrite (find_new_row actor (Booking.id A) (bookings s) A eq_refl HAu
               Hfresh).
    rewrite HAs. cbn [status_in existsb status_eqb orb].
    unfold BookingViewSet.save, modify, store_after. cbn [snd listings bookings].
    fold A'. unfold s2. f_equal. f_equal.
    apply rewrite_new_row; [reflexivity | exact Hfresh]. }
  assert (Hrel : forall ci' co' l',
             booked (bookings s2) ci' co' l' <-> booked (bookings s) ci' co' l').
  { intros ci' co' l'. unfold s2. cbn [bookings].
    apply booked_app_released. reflexivity. }
  exists s2. split; [exact Hcancel|]. split; [reflexivity|].
  split; [reflexivity|]. split; [exact Hrel|]. split.
  - intros DateField q cands a b Ha Hb Hna Hnb Hci Hco.
    destruct (filter_dates_rows DateField (fun _ => None) q cands s2 a b ci co
                Ha Hb Hna Hnb Hci Hco) as (rows & Hrun & _ & Hrows).
    exists rows. split; [exact Hrun|].
    intros L HL HLid. apply Hrows. split; [exact HL|].
    intros Hbk. apply Hrel in Hbk. apply Hfree.
    apply (booked_same_id (bookings s) ci co L l); [congruence | exact Hbk].
  - eexists. eexists.
    rewrite createBooking_eq, Hlt. cbn [negb].
    change (listings s2) with (listings s). rewrite Hfind, Hact. cbn [negb].
    destruct (existsb _ (bookings s2)) eqn:Hex.
    + exfalso. apply taken_iff in Hex. apply Hrel in Hex. contradiction.
    + cbn. split; [reflexivity|]. repeat split.
      apply in_or_app. right. left. reflexivity.
Qed.

(* ================================================================= *)
(** ** No double booking *)








(* ================================================================= *)
(** ** The half-open boundary, on dates of June 2024 *)

Lemma iso_date_june :
  Examples.iso_date "2024-06-01" = Some (Examples.jun 1)
  /\ Examples.iso_date "2024-06-03" = Some (Examples.jun 3)
  /\ Examples.iso_date "2024-06-05" = Some (Examples.jun 5)
  /\ Examples.iso_date "2024-06-07" = Some (Examples.jun 7)
  /\ Examples.iso_date "2024-06-10" = Some (Examples.jun 10).
Proof. repeat split; vm_compute; reflexivity. Qed.

Lemma nonempty_literal (c : Ascii.ascii) (rest : string) :
  String c rest <> "".
Proof. discriminate. Qed.

(** C6. With a pending or confirmed booking of [2024-06-01, 2024-06-05) on a
    listing, the overlap test rejects [2024-06-05, 2024-06-10) (the two stays
    share no day, and the listing is still returned for those dates) and
    accepts [2024-06-03, 2024-06-07) (the stays share a day, and the listing
    is excluded for those dates). *)
Theorem half_open_boundary (pk lid u : Z) (st : Status) (L : Listing.t)
  (cat : list Listing.t) :
  st = pending \/ st = confirmed ->
  Listing.id L = lid -> Listing.is_active L = true -> In L cat ->
  let first :=
    Booking.make pk lid u (Examples.jun 1) (Examples.jun 5) st in
  let s := mkStore cat [first] in
  ListingViewSet.Q_overlap (Examples.jun 5) (Examples.jun 10) first = false
  /\ ListingViewSet.Q_overlap (Examples.jun 3) (Examples.jun 7) first = true
  /\ ~ intervals_meet (Examples.jun 1) (Examples.jun 5)
         (Examples.jun 5) (Examples.jun 10)
  /\ intervals_meet (Examples.jun 1) (Examples.jun 5)
       (Examples.jun 3) (Examples.jun 7)
  /\ (exists rows,
        ListingViewSet.get_queryset Examples.iso_date Examples.whole_amount
          (Examples.dates "2024-06-05" "2024-06-10") s = (inr rows, s)
        /\ In L rows)
  /\ (exists rows,
        ListingViewSet.get_queryset Examples.iso_date Examples.whole_amount
          (Examples.dates "2024-06-03" "2024-06-07") s = (inr rows, s)
        /\ ~ In L rows).
Proof.
  intros Hst Hid Hact Hin first s.
  destruct iso_date_june as (_ & H3 & H5 & H7 & H10).
  assert (HL : In L (filter Listing.is_active cat))
    by (apply filter_In; auto).
  split; [reflexivity|]. split; [reflexivity|]. split; [|split; [|split]].
  - intros Hm. apply meet_passes_test in Hm as [Hm _].
    vm_compute in Hm. discriminate Hm.
  - exists (Examples.jun 3). split; split; reflexivity.
  - destruct (filter_dates_rows Examples.iso_date Examples.whole_amount
                (Examples.dates "2024-06-05" "2024-06-10")
                (filter Listing.is_active cat) s
                "2024-06-05" "2024-06-10" (Examples.jun 5) (Examples.jun 10)
                eq_refl eq_refl (nonempty_literal _ _) (nonempty_literal _ _)
                H5 H10) as (rows & Hrun & _ & Hrows).
    exists rows. split.
    + rewrite get_queryset_unpriced by reflexivity. exact Hrun.
    + apply Hrows. split; [exact HL|].
      intros (b & [<- | []] & _ & _ & _ & Hq).
      vm_compute in Hq. discriminate Hq.
  - destruct (filter_dates_rows Examples.iso_date Examples.whole_amount
                (Examples.dates "2024-06-03" "2024-06-07")
                (filter Listing.is_active cat) s
                "2024-06-03" "2024-06-07" (Examples.jun 3) (Examples.jun 7)
                eq_refl eq_refl (nonempty_literal _ _) (nonempty_literal _ _)
                H3 H7) as (rows & Hrun & _ & Hrows).
    exists rows. split.
    + rewrite get_queryset_unpriced by reflexivity. exact Hrun.
    + intros HinL. apply Hrows in HinL as [_ Hfree]. apply Hfree.
      exists first. split; [left; reflexivity|].
      split; [symmetry; exact Hid|].
      split; [exact Hst|]. split; reflexivity.
Qed.

(* ================================================================= *)
(** * Worked instances *)

Lemma busy_store_unique : unique_ids Examples.busy_store.
Proof.
  unfold unique_ids. cbn. repeat constructor; cbn; intuition discriminate.
Defined.


Lemma availability_filter_exact_witness :
  exists rows,
    ListingViewSet.filter_dates Examples.iso_date
      (Examples.dates "2024-06-03" "2024-06-07")
      [Examples.villa; Examples.cabin] Examples.busy_store
    = (inr rows, Examples.busy_store).
Proof.
  destruct (availability_filter_exact Examples.iso_date Examples.whole_amount
              (Examples.dates "2024-06-03" "2024-06-07")
              [Examples.villa; Examples.cabin] Examples.busy_store
              "2024-06-03" "2024-06-07" (Examples.jun 3) (Examples.jun 7)
              eq_refl eq_refl (nonempty_literal _ _) (nonempty_literal _ _)
              eq_refl eq_refl eq_refl)
    as (rows & Hrun & _).
  exists rows. exact Hrun.
Defined.

Lemma createBooking_validates_witness :
  Lifecycle.createBooking 12 1 (Examples.jun 3) (Examples.jun 7)
    Examples.busy_store
  = (inl Conflict, Examples.busy_store).
Proof.
  apply (proj1 (proj2 (createBooking_validates Examples.busy_store 12
                         Examples.villa (Examples.jun 3) (Examples.jun 7)
                         eq_refl eq_refl eq_refl))).
  exists Examples.stay_1_5.
  split; [left; reflexivity|]. split; [reflexivity|].
  split; [left; reflexivity|]. split; reflexivity.
Defined.



Lemma half_open_boundary_witness :
  ListingViewSet.Q_overlap (Examples.jun 5) (Examples.jun 10)
    Examples.stay_1_5 = false
  /\ ListingViewSet.Q_overlap (Examples.jun 3) (Examples.jun 7)
       Examples.stay_1_5 = true.
Proof.
  destruct (half_open_boundary 1 1 10 pending Examples.villa Examples.catalog
              (or_introl eq_refl) eq_refl eq_refl (or_introl eq_refl))
    as (H1 & H2 & _).
  split; [exact H1 | exact H2].
Defined.

Lemma no_filter_default_witness :
  ListingViewSet.get_queryset Examples.iso_date Examples.whole_amount []
    Examples.busy_store
  = (inr [Examples.villa; Examples.cabin], Examples.busy_store).
Proof.
  exact (proj1 (proj2 (proj2 (no_filter_default Examples.iso_date
                                Examples.whole_amount [] Examples.busy_store
                                (or_introl eq_refl)))
                 eq_refl eq_refl)).
Defined.

Lemma cancellation_frees_capacity_witness :
  exists s2 B s3,
    Lifecycle.createBooking 11 1 (Examples.jun 1) (Examples.jun 5) s2
    = (inr B, s3)
    /\ Booking.status B = pending.
Proof.
  destruct (cancellation_frees_capacity Examples.empty_store
              (mkStore Examples.catalog
                 [Booking.make 1 1 10 (Examples.jun 1) (Examples.jun 5)
                    pending])
              10 11 1 (Examples.jun 1) (Examples.jun 5)
              (Booking.make 1 1 10 (Examples.jun 1) (Examples.jun 5) pending)
              eq_refl)
    as (s2 & _ & _ & _ & _ & _ & B & s3 & Hrun & Hst & _).
  exists s2, B, s3. split; [exact Hrun | exact Hst].
Defined.

Lemma owner_scoping_witness :
  outcome (BookingViewSet.cancel 10 2 Examples.busy_store)
  = outcome (BookingViewSet.cancel 10 2
               (mkStore Examples.catalog [Examples.stay_1_5])).
Proof.
  assert (Hu : unique_ids (mkStore Examples.catalog [Examples.stay_1_5])).
  { unfold unique_ids. cbn. repeat constructor; cbn; intuition discriminate. }
  destruct (owner_scoping 10 2 Examples.busy_store
              (mkStore Examples.catalog [Examples.stay_1_5])
              busy_store_unique Hu eq_refl)
    as ((_ & _ & Hc & _) & _).
  exact Hc.
Defined.

(* ================================================================= *)
(** * Further properties of the views *)

(** ** The listing query as a whole *)

Lemma filter_twice {A} (p1 p2 : A -> bool) (l : list A) :
  filter p2 (filter p1 l) = filter (fun x => p1 x && p2 x) l.
Proof.
  induction l as [|x l IH]; [reflexivity|].
  cbn [filter]. destruct (p1 x); cbn [filter andb]; rewrite IH; reflexivity.
Qed.

Lemma filter_price_bound (DecimalField : string -> option Z) (q : QueryDict)
  (cands : list Listing.t) (s : Store) (lo hi : option Z) :
  bound DecimalField (get "min_price" q) lo ->
  bound DecimalField (get "max_price" q) hi ->
  exists rows,
    ListingViewSet.filter_price DecimalField q cands s = (inr rows, s)
    /\ (exists keep, rows = filter keep cands)
    /\ (forall l, In l rows
                  <-> In l cands /\ within lo hi (Listing.price_per_night l)).
Proof.
  unfold bound, within, ListingViewSet.filter_price, bind, to_python.
  destruct (get "min_price" q) as [v|], (get "max_price" q) as [w|];
    cbn [is_not_None].
  - intros (p & Hp & ->) (p' & Hp' & ->). rewrite Hp. cbn. rewrite Hp'. cbn.
    eexists. split; [reflexivity|]. split.
    + eexists. apply filter_twice.
    + intros l. rewrite !filter_In, !Z.leb_le. tauto.
  - intros (p & Hp & ->) ->. rewrite Hp. cbn.
    eexists. split; [reflexivity|]. split; [eexists; reflexivity|].
    intros l. rewrite filter_In, Z.leb_le. tauto.
  - intros -> (p' & Hp' & ->). cbn. rewrite Hp'. cbn.
    eexists. split; [reflexivity|]. split; [eexists; reflexivity|].
    intros l. rewrite filter_In, Z.leb_le. tauto.
  - intros -> ->. cbn. exists cands. split; [reflexivity|]. split.
    + exists (fun _ => true). induction cands as [|x l IH]; [reflexivity|].
      cbn. f_equal. exact IH.
    + intros l. tauto.
Qed.

Lemma filter_price_rejected (DecimalField : string -> option Z)
  (q : QueryDict) (cands : list Listing.t) (s : Store) :
  price_rejected DecimalField q ->
  ListingViewSet.filter_price DecimalField q cands s
  = (inl ValidationError, s).
Proof.
  unfold price_rejected, ListingViewSet.filter_price, bind, to_python.
  intros [(v & Hv & Hr) | (v & Hv & Hr)]; rewrite Hv.
  - cbn. rewrite Hr. reflexivity.
  - destruct (get "min_price" q) as [w|]; cbn.
    + destruct (DecimalField w); cbn; rewrite ?Hr; reflexivity.
    + rewrite Hr. reflexivity.
Qed.

Lemma get_queryset_stages (DateField : string -> option Date.t)
  (DecimalField : string -> option Z) (q : QueryDict) (s : Store) :
  ListingViewSet.get_queryset DateField DecimalField q s
  = match ListingViewSet.filter_price DecimalField q
            (filter Listing.is_active (listings s)) s with
    | (inr priced, s') => ListingViewSet.filter_dates DateField q priced s'
    | (inl e, s') => (inl e, s')
    end.
Proof. reflexivity. Qed.

(** X1. With both dates supplied and accepted, and each price bound either
    absent or accepted, the listing query returns exactly the stored listings
    that are active, priced within the bounds and not booked over the
    interval, in stored order, and leaves the store as it was. *)
Theorem get_queryset_rows (DateField : string -> option Date.t)
  (DecimalField : string -> option Z) (q : QueryDict) (s : Store)
  (a b : string) (ci co : Date.t) (lo hi : option Z) :
  get "check_in_date" q = Some a -> get "check_out_date" q = Some b ->
  a <> "" -> b <> "" ->
  DateField a = Some ci -> DateField b = Some co ->
  bound DecimalField (get "min_price" q) lo ->
  bound DecimalField (get "max_price" q) hi ->
  exists rows,
    ListingViewSet.get_queryset DateField DecimalField q s = (inr rows, s)
    /\ (exists keep, rows = filter keep (listings s))
    /\ (forall l, In l rows
                  <-> In l (listings s)
                      /\ Listing.is_active l = true
                      /\ within lo hi (Listing.price_per_night l)
                      /\ ~ booked (bookings s) ci co l).
Proof.
  intros Ha Hb Hna Hnb Hci Hco Hlo Hhi.
  destruct (filter_price_bound DecimalField q
              (filter Listing.is_active (listings s)) s lo hi Hlo Hhi)
    as (priced & Hprice & (k1 & Hk1) & Hpriced).
  destruct (filter_dates_rows DateField DecimalField q priced s a b ci co
              Ha Hb Hna Hnb Hci Hco) as (rows & Hrun & (k2 & Hk2) & Hrows).
  exists rows. split; [rewrite get_queryset_stages, Hprice; exact Hrun|].
  split.
  - eexists. rewrite Hk2, Hk1, !filter_twice. reflexivity.
  - intros l. rewrite Hrows, Hpriced, filter_In. tauto.
Qed.

(** X2. A price parameter that is present but rejected by the decimal column
    makes the listing query raise, whatever the other parameters are, and the
    store is untouched; the [available] action raises too when both dates are
    given, but still answers its own 400 first when a date is missing. *)
Theorem rejected_price_raises (DateField : string -> option Date.t)
  (DecimalField : string -> option Z) (q : QueryDict) (s : Store) :
  price_rejected DecimalField q ->
  ListingViewSet.get_queryset DateField DecimalField q s
  = (inl ValidationError, s)
  /\ ListingViewSet.available DateField DecimalField q s
     = if truthy (get "check_in_date" q) && truthy (get "check_out_date" q)
       then (inl ValidationError, s)
       else (inr (mkResponse
                    (ErrorData
                       "Both check_in_date and check_out_date are required")
                    HTTP_400_BAD_REQUEST), s).
Proof.
  intros Hrej.
  assert (Hq : ListingViewSet.get_queryset DateField DecimalField q s
               = (inl ValidationError, s)).
  { rewrite get_queryset_stages.
    rewrite (filter_price_rejected DecimalField q _ s Hrej). reflexivity. }
  split; [exact Hq|].
  unfold ListingViewSet.available. rewrite <- negb_andb.
  destruct (truthy (get "check_in_date" q) && truthy (get "check_out_date" q));
    cbn [negb]; [|reflexivity].
  unfold bind. rewrite Hq. reflexivity.
Qed.

(** X3. With both dates non-empty, a date the date column rejects makes the
    listing query raise once the price stage has passed, and [available] lets
    that exception through instead of answering; the store is untouched. *)
Theorem rejected_date_raises (DateField : string -> option Date.t)
  (DecimalField : string -> option Z) (q : QueryDict) (s : Store)
  (a b : string) (lo hi : option Z) :
  get "check_in_date" q = Some a -> get "check_out_date" q = Some b ->
  a <> "" -> b <> "" ->
  DateField a = None \/ DateField b = None ->
  bound DecimalField (get "min_price" q) lo ->
  bound DecimalField (get "max_price" q) hi ->
  ListingViewSet.get_queryset DateField DecimalField q s
  = (inl ValidationError, s)
  /\ ListingViewSet.available DateField DecimalField q s
     = (inl ValidationError, s).
Proof.
  intros Ha Hb Hna Hnb Hbad Hlo Hhi.
  destruct (filter_price_bound DecimalField q
              (filter Listing.is_active (listings s)) s lo hi Hlo Hhi)
    as (priced & Hprice & _).
  assert (Hq : ListingViewSet.get_queryset DateField DecimalField q s
               = (inl ValidationError, s)).
  { rewrite get_queryset_stages, Hprice.
    unfold ListingViewSet.filter_dates.
    rewrite Ha, Hb, (truthy_Some a Hna), (truthy_Some b Hnb). cbn [andb].
    unfold bind, to_python.
    destruct (DateField b) as [co|]; [|reflexivity].
    destruct Hbad as [Hbad | Hbad]; [|discriminate].
    cbn. rewrite Hbad. reflexivity. }
  split; [exact Hq|].
  unfold ListingViewSet.available.
  rewrite Ha, Hb, (truthy_Some a Hna), (truthy_Some b Hnb). cbn [negb orb].
  unfold bind. rewrite Hq. reflexivity.
Qed.

(** X4. The read views never write: the listing query and [available], and
    the booking list query and [get_object], return the store they were given
    for every request, also when they raise. *)
Theorem read_views_keep_store (DateField : string -> option Date.t)
  (DecimalField : string -> option Z) (q : QueryDict) (u pk : Z)
  (s : Store) :
  store_after (ListingViewSet.get_queryset DateField DecimalField q s) = s
  /\ store_after (ListingViewSet.available DateField DecimalField q s) = s
  /\ store_after (BookingViewSet.get_queryset u s) = s
  /\ store_after (BookingViewSet.get_object u pk s) = s.
Proof.
  pose proof (get_queryset_reads DateField DecimalField q s) as Hq.
  split; [exact Hq|]. split; [|split; [reflexivity|]].
  - unfold ListingViewSet.available.
    destruct (negb _ || negb _); [reflexivity|].
    unfold bind.
    destruct (ListingViewSet.get_queryset DateField DecimalField q s)
      as [[e|rows] s']; exact Hq.
  - rewrite get_object_eq. destruct (find _ _); reflexivity.
Qed.

(** ** Booking lookups, insertion and the lifecycle *)

Lemma find_none_iff {A} (p : A -> bool) (l : list A) :
  find p l = None <-> forall x, In x l -> p x = false.
Proof.
  split; [apply find_none|].
  induction l as [|x l IH]; intros H; [reflexivity|].
  cbn. rewrite (H x (or_introl eq_refl)). apply IH.
  intros y Hy. apply H. right. exact Hy.
Qed.

Lemma lookup_misses (u pk : Z) (s : Store) :
  (forall b, In b (bookings s) -> Booking.user b = u -> Booking.id b <> pk) ->
  find (fun r => Booking.id r =? pk) (owned_by u s) = None.
Proof.
  intros H. apply find_none_iff. intros x Hx.
  apply filter_In in Hx as [Hx Hu]. apply Z.eqb_eq in Hu.
  apply Z.eqb_neq. apply H; assumption.
Qed.

(** X5. When the requester owns no booking with the given key, [get_object],
    [cancel] and [confirm] all raise [Http404] and the store is untouched;
    and whatever the store, [Http404] is the only exception [cancel] and
    [confirm] ever raise. *)
Theorem missing_key_not_found (u pk : Z) (s : Store) :
  (forall b, In b (bookings s) -> Booking.user b = u -> Booking.id b <> pk) ->
  BookingViewSet.get_object u pk s = (inl Http404, s)
  /\ BookingViewSet.cancel u pk s = (inl Http404, s)
  /\ BookingViewSet.confirm u pk s = (inl Http404, s)
  /\ (forall u' pk' s' e,
        outcome (BookingViewSet.cancel u' pk' s') = inl e
        \/ outcome (BookingViewSet.confirm u' pk' s') = inl e ->
        e = Http404).
Proof.
  intros Hnone. pose proof (lookup_misses u pk s Hnone) as Hf.
  rewrite get_object_eq, cancel_eq, confirm_eq, Hf.
  repeat split.
  intros u' pk' s' e. rewrite cancel_eq, confirm_eq.
  destruct (find _ (owned_by u' s')) as [b|].
  - destruct (status_in _ _), (negb _); cbn; intros [H | H]; discriminate H.
  - cbn. intros [H | H]; inversion H; reflexivity.
Qed.

Lemma find_past_new_row (u pk : Z) (rows : list Booking.t) (A : Booking.t) :
  (Booking.user A =? u) && (Booking.id A =? pk) = false ->
  find (fun r => Booking.id r =? pk)
    (filter (fun r => Booking.user r =? u) (rows ++ [A]))
  = find (fun r => Booking.id r =? pk)
      (filter (fun r => Booking.user r =? u) rows).
Proof.
  intros HA. induction rows as [|x rows IH]; cbn [app filter].
  - destruct (Booking.user A =? u); cbn [find]; [|reflexivity].
    cbn [andb] in HA. rewrite HA. reflexivity.
  - destruct (Booking.user x =? u); [|exact IH].
    cbn [find]. destruct (Booking.id x =? pk); [reflexivity | exact IH].
Qed.

(** X6. [perform_create] always succeeds, attributes the new booking to the
    requester and keeps the validated listing and dates; it appends one row
    with an unused key and changes nothing else.  Afterwards the owner's
    [get_object] on the new key returns that booking, any other user gets
    [Http404] for it, and lookups of every other key answer as before. *)
Theorem perform_create_round_trip (u : Z)
  (d : BookingViewSet.validated_data) (s : Store) :
  exists b s',
    BookingViewSet.perform_create u d s = (inr b, s')
    /\ Booking.user b = u
    /\ Booking.listing_id b = BookingViewSet.listing d
    /\ Booking.check_in_date b = BookingViewSet.check_in_date d
    /\ Booking.check_out_date b = BookingViewSet.check_out_date d
    /\ ~ In (Booking.id b) (map Booking.id (bookings s))
    /\ bookings s' = bookings s ++ [b]
    /\ listings s' = listings s
    /\ BookingViewSet.get_object u (Booking.id b) s' = (inr b, s')
    /\ (forall u', u' <> u ->
          BookingViewSet.get_object u' (Booking.id b) s' = (inl Http404, s'))
    /\ (forall u' pk, pk <> Booking.id b ->
          outcome (BookingViewSet.get_object u' pk s')
          = outcome (BookingViewSet.get_object u' pk s)).
Proof.
  set (b := Booking.make (BookingViewSet.next_id (bookings s))
              (BookingViewSet.listing d) u (BookingViewSet.check_in_date d)
              (BookingViewSet.check_out_date d) pending).
  set (s' := mkStore (listings s) (bookings s ++ [b])).
  assert (Hfresh : forall x, In x (bookings s) -> Booking.id x <> Booking.id b).
  { intros x Hx. apply next_id_above in Hx. cbn [b Booking.id]. lia. }
  exists b, s'. split; [reflexivity|].
  do 4 (split; [reflexivity|]).
  split; [apply next_id_fresh|]. split; [reflexivity|]. split; [reflexivity|].
  split; [|split].
  - rewrite get_object_eq. unfold owned_by, s'. cbn [bookings].
    rewrite (find_new_row u (Booking.id b) (bookings s) b eq_refl eq_refl
               Hfresh).
    reflexivity.
  - intros u' Hu'. rewrite get_object_eq. unfold owned_by, s'. cbn [bookings].
    rewrite find_past_new_row.
    + replace (find _ _) with (@None Booking.t); [reflexivity|].
      symmetry. apply find_none_iff. intros x Hx.
      apply filter_In in Hx as [Hx _]. apply Z.eqb_neq. apply Hfresh, Hx.
    + cbn [b Booking.user].
      destruct (Z.eqb_spec u u'); [congruence | reflexivity].
  - intros u' pk Hpk. rewrite !get_object_eq. unfold owned_by, s'.
    cbn [bookings]. rewrite find_past_new_row.
    + destruct (find _ _); reflexivity.
    + destruct (Z.eqb_spec (Booking.id b) pk); [congruence|].
      apply andb_false_r.
Qed.

Lemma set_status_twice (b : Booking.t) (st st' : Status) :
  Booking.set_status (Booking.set_status b st) st' = Booking.set_status b st'.
Proof. reflexivity. Qed.

(** X7. After a pending booking has been confirmed, a second [confirm] is
    refused with a 400 naming "confirmed" and changes nothing, while [cancel]
    succeeds, and the owner's lookup then returns the booking as cancelled. *)
Theorem confirmed_booking_next_steps (u pk : Z) (s : Store) (b : Booking.t) :
  outcome (BookingViewSet.get_object u pk s) = inr b ->
  Booking.status b = pending ->
  let s' := store_after (BookingViewSet.confirm u pk s) in
  outcome (BookingViewSet.get_object u pk s')
  = inr (Booking.set_status b confirmed)
  /\ BookingViewSet.confirm u pk s'
     = (inr (mkResponse
               (ErrorData "Cannot confirm a booking that is confirmed")
               HTTP_400_BAD_REQUEST), s')
  /\ exists s'',
       BookingViewSet.cancel u pk s'
       = (inr (mkResponse
                 (BookingMessage "Booking cancelled successfully"
                    (Booking.set_status b cancelled))
                 HTTP_200_OK), s'')
       /\ outcome (BookingViewSet.get_object u pk s'')
          = inr (Booking.set_status b cancelled).
Proof.
  intros Hget Hst.
  destruct (get_object_found u pk s b Hget) as (Hf & Hin & Hu & Hid).
  rewrite confirm_eq, Hf, Hst. cbn [status_eqb negb store_after snd].
  pose proof (get_object_after_save u pk s b confirmed Hf Hu Hid) as Hf1.
  set (s' := store_after
               (BookingViewSet.save (Booking.set_status b confirmed) s)) in *.
  cbn zeta.
  split; [rewrite get_object_eq, Hf1; reflexivity|].
  split; [rewrite confirm_eq, Hf1; reflexivity|].
  eexists. split; [rewrite cancel_eq, Hf1; reflexivity|].
  rewrite get_object_eq.
  rewrite (get_object_after_save u pk s' (Booking.set_status b confirmed)
             cancelled Hf1 Hu Hid).
  reflexivity.
Qed.
